(** * The IDE Perf JVMTI agent (agent/native/src/main/cpp/agent.cpp)

    A shallow embedding of the native agent: the thread-local allocation
    counter, the [SampledObjectAlloc] callback, the JNI accessor and the
    start-up sequence [Agent_OnAttach] / [Agent_OnLoad], followed by the
    properties of the counter and of the start-up protocol. *)

From Stdlib Require Import ZArith Lia.
From stdpp Require Import gmap strings list pretty.

Local Open Scope Z_scope.

(** ** [jlong]: 64-bit two's-complement integers

    [jlong] values are carried as [Z]; every arithmetic result is brought
    back into the representable interval by [wrap].  (The C++ standard leaves
    signed overflow undefined; the wrap-around written here is what the
    two's-complement targets of the JVM compute for [+=].) *)
Module JLong.

Definition min_value : Z := - 2 ^ 63.
Definition max_value : Z := 2 ^ 63 - 1.
Definition modulus : Z := 2 ^ 64.

Definition in_range (z : Z) : Prop := min_value <= z <= max_value.

Definition wrap (z : Z) : Z := (z + 2 ^ 63) mod modulus - 2 ^ 63.

Definition add (a b : Z) : Z := wrap (a + b).

(** [std::max(a, b)] is [(a < b) ? b : a]. *)
Definition max (a b : Z) : Z := if a <? b then b else a.

End JLong.

(** ** Constants of the JDK headers and of the agent *)

(** jni.h *)
Definition JNI_OK : Z := 0.
Definition JNI_ERR : Z := -1.
Definition JNI_EVERSION : Z := -3.

(** jvmti.h *)
Definition JVMTI_VERSION_11 : Z := 0x300B0000.
Definition JVMTI_ERROR_NONE : Z := 0.
Definition JVMTI_ENABLE : Z := 1.
Definition JVMTI_EVENT_SAMPLED_OBJECT_ALLOC : Z := 86.

Definition kHeapSamplingInterval : Z := 256 * 1024.
Definition kHeapSamplingIntervalLong : Z := kHeapSamplingInterval.

(** ** Handles, structs and the calls the agent makes into the JVM *)

(** Opaque pointers ([JavaVM*], [jvmtiEnv*], [JNIEnv*], [jthread], ...). *)
Definition handle : Type := N.
Definition nullptr : handle := 0%N.

(** Identity of the native thread a function runs on. *)
Definition thread : Type := nat.

(** [jvmtiCapabilities capabilities = {}]: every bit is clear; the agent
    names one field only. *)
Record jvmtiCapabilities : Type :=
  { can_generate_sampled_object_alloc_events : bool }.

(** The functions of this file that are handed to the JVM as callbacks. *)
Inductive callback : Type :=
| cb_SampledObjectAlloc.

(** [jvmtiEventCallbacks callbacks = {}]: every slot is null; the agent fills
    one.  The [sizeof(callbacks)] argument of [SetEventCallbacks] is fixed by
    the struct type and is not carried. *)
Record jvmtiEventCallbacks : Type :=
  { cbs_SampledObjectAlloc : option callback }.

(** A call into the JVM, indexed by the type of what comes back.  A C string
    the host hands out ([char*]) is an [option string], [None] being the null
    pointer. *)
Inductive jvm_call : Type -> Type :=
| GetEnv (vm : handle) (version : Z) : jvm_call (Z * handle)
| AddCapabilities (jvmti : handle) (caps : jvmtiCapabilities) : jvm_call Z
| SetEventCallbacks (jvmti : handle) (callbacks : jvmtiEventCallbacks) : jvm_call Z
| SetHeapSamplingInterval (jvmti : handle) (interval : Z) : jvm_call Z
| SetEventNotificationMode (jvmti : handle) (mode event_type : Z)
    (event_thread : handle) : jvm_call Z
| GetErrorName (jvmti : handle) (error : Z) : jvm_call (Z * option string)
| Deallocate (jvmti : handle) (mem : option string) : jvm_call Z.

(** ** Native code as a small effect monad

    A native function reads and writes the [thread_local] counter of the
    thread it runs on, writes to [stderr], and calls into the JVM. *)
Inductive prog (A : Type) : Type :=
| Ret (a : A)
| LoadTL (k : Z -> prog A)
| StoreTL (v : Z) (k : prog A)
| Stderr (text : string) (k : prog A)
| Jvm {R : Type} (c : jvm_call R) (k : R -> prog A).

Arguments Ret {A} a.
Arguments LoadTL {A} k.
Arguments StoreTL {A} v k.
Arguments Stderr {A} text k.
Arguments Jvm {A R} c k.

Fixpoint bind {A B : Type} (p : prog A) (f : A -> prog B) : prog B :=
  match p with
  | Ret a => f a
  | LoadTL k => LoadTL (fun v => bind (k v) f)
  | StoreTL v k => StoreTL v (bind k f)
  | Stderr text k => Stderr text (bind k f)
  | Jvm c k => Jvm c (fun r => bind (k r) f)
  end.

Definition load_thread_allocations : prog Z := LoadTL Ret.
Definition store_thread_allocations (v : Z) : prog unit := StoreTL v (Ret tt).
Definition fprintf_stderr (text : string) : prog unit := Stderr text (Ret tt).
Definition jvm {R : Type} (c : jvm_call R) : prog R := Jvm c Ret.

Declare Scope prog_scope.
Delimit Scope prog_scope with prog.
Notation "x <- p ;; q" := (bind p (fun x => q))
  (at level 100, p at next level, right associativity) : prog_scope.
Notation "p ;; q" := (bind p (fun _ => q))
  (at level 100, right associativity) : prog_scope.

(** ** The agent *)

Definition newline : string := String (Ascii.ascii_of_nat 10) "".

(** [fprintf(stderr, "JVMTI error: %d(%s) %s\n", err, desc, msg)] *)
Definition jvmti_error_line (err : Z) (desc msg : string) : string :=
  "JVMTI error: " +:+ pretty err +:+ "(" +:+ desc +:+ ") " +:+ msg +:+ newline.

Definition HandleJvmtiError (jvmti : handle) (err : Z) (msg : string) : prog bool :=
  (if err =? JVMTI_ERROR_NONE then
     Ret false
   else
     r <- jvm (GetErrorName jvmti err) ;;
     let name := r.2 in
     let desc := match name with Some s => s | None => "Unknown" end in
     fprintf_stderr (jvmti_error_line err desc msg) ;;
     jvm (Deallocate jvmti name) ;;
     Ret true)%prog.

Definition SampledObjectAlloc
    (jvmti jni thread_ object klass : handle) (size : Z) : prog unit :=
  (c <- load_thread_allocations ;;
   store_thread_allocations
     (JLong.add c (JLong.max kHeapSamplingIntervalLong size)))%prog.

Definition Java_com_google_idea_perf_AllocationSampling_countAllocationsForCurrentThread
    (jni thiz : handle) : prog Z :=
  (c <- load_thread_allocations ;; Ret c)%prog.

Abbreviation countAllocationsForCurrentThread :=
  Java_com_google_idea_perf_AllocationSampling_countAllocationsForCurrentThread.

Definition getenv_error_line : string :=
  "Error retrieving JVMTI function table" +:+ newline.

Definition Agent_OnAttach (vm : handle) (options : option string)
    (reserved : handle) : prog Z :=
  (r <- jvm (GetEnv vm JVMTI_VERSION_11) ;;
   let '(status, jvmti) := r in
   if negb (status =? JNI_OK) then
     fprintf_stderr getenv_error_line ;;
     Ret JNI_ERR
   else
   let capabilities := {| can_generate_sampled_object_alloc_events := true |} in
   err <- jvm (AddCapabilities jvmti capabilities) ;;
   failed <- HandleJvmtiError jvmti err "Failed to add JVMTI capabilities" ;;
   if failed : bool then Ret JNI_ERR else
   let callbacks := {| cbs_SampledObjectAlloc := Some cb_SampledObjectAlloc |} in
   err <- jvm (SetEventCallbacks jvmti callbacks) ;;
   failed <- HandleJvmtiError jvmti err "Failed to set JVMTI callbacks" ;;
   if failed : bool then Ret JNI_ERR else
   err <- jvm (SetHeapSamplingInterval jvmti kHeapSamplingInterval) ;;
   failed <- HandleJvmtiError jvmti err "Failed to set heap sampling interval" ;;
   if failed : bool then Ret JNI_ERR else
   err <- jvm (SetEventNotificationMode jvmti JVMTI_ENABLE
                 JVMTI_EVENT_SAMPLED_OBJECT_ALLOC nullptr) ;;
   failed <- HandleJvmtiError jvmti err "Failed to enable JVMTI events" ;;
   if failed : bool then Ret JNI_ERR else
   Ret JNI_OK)%prog.

Definition Agent_OnLoad (vm : handle) (options : option string)
    (reserved : handle) : prog Z :=
  (status <- Agent_OnAttach vm options reserved ;; Ret status)%prog.

(** ** Running native code against a JVM

    The JVM is any state machine answering the calls of [jvm_call]; the
    thread-local variable [thread_allocations] is a finite map from native
    threads to their cell, a thread without a cell yet reading the
    initialiser [0]. *)
Definition jvm_host (H : Type) : Type := forall R : Type, jvm_call R -> H -> R * H.

Record world (H : Type) : Type := World
  { thread_allocations : gmap thread Z;
    jvm_state : H }.

Arguments World {H} _ _.
Arguments thread_allocations {H} _.
Arguments jvm_state {H} _.

(** What an observer outside the agent sees of a run, in order. *)
Inductive event : Type :=
| EvJvm {R : Type} (c : jvm_call R) (r : R)
| EvStderr (text : string).

Definition counter {H : Type} (w : world H) (t : thread) : Z :=
  default 0 (thread_allocations w !! t).

Fixpoint run {H A : Type} (host : jvm_host H) (self : thread) (p : prog A)
    (w : world H) : A * world H * list event :=
  match p with
  | Ret a => (a, w, [])
  | LoadTL k => run host self (k (counter w self)) w
  | StoreTL v k =>
      run host self k (World (<[self := v]> (thread_allocations w)) (jvm_state w))
  | Stderr text k =>
      let '(a, w', tr) := run host self k w in (a, w', EvStderr text :: tr)
  | Jvm c k =>
      let '(r, h') := host _ c (jvm_state w) in
      let '(a, w', tr) := run host self (k r) (World (thread_allocations w) h') in
      (a, w', EvJvm c r :: tr)
  end.

Definition result_of {H A : Type} (o : A * world H * list event) : A := o.1.1.
Definition world_of {H A : Type} (o : A * world H * list event) : world H := o.1.2.
Definition trace_of {H A : Type} (o : A * world H * list event) : list event := o.2.

(** The state of a process in which no native function has run yet. *)
Definition initial_world {H : Type} (h : H) : world H := World ∅ h.

(** *** What the JVM does on a thread after start-up *)

Inductive action : Type :=
| Notify (jvmti jni thread_ object klass : handle) (size : Z)
| Query (jni thiz : handle).

Definition action_size (a : action) : option Z :=
  match a with
  | Notify _ _ _ _ _ size => Some size
  | Query _ _ => None
  end.

(** One action on thread [self]; a query's value is dropped here. *)
Definition exec {H : Type} (host : jvm_host H) (self : thread) (a : action)
    (w : world H) : world H :=
  match a with
  | Notify jvmti jni thread_ object klass size =>
      world_of (run host self (SampledObjectAlloc jvmti jni thread_ object klass size) w)
  | Query jni thiz =>
      world_of (run host self
        (Java_com_google_idea_perf_AllocationSampling_countAllocationsForCurrentThread
           jni thiz) w)
  end.

(** A schedule interleaves the actions of all threads. *)
Definition exec_schedule {H : Type} (host : jvm_host H)
    (sch : list (thread * action)) (w : world H) : world H :=
  foldl (fun w ta => exec host ta.1 ta.2 w) w sch.

(** The actions of one thread, all on [self]. *)
Definition exec_thread {H : Type} (host : jvm_host H) (self : thread)
    (acts : list action) (w : world H) : world H :=
  foldl (fun w a => exec host self a w) w acts.

Definition query {H : Type} (host : jvm_host H) (self : thread) (w : world H) : Z :=
  result_of (run host self
    (Java_com_google_idea_perf_AllocationSampling_countAllocationsForCurrentThread
       nullptr nullptr) w).

(** *** Hosts to run against *)

(** A JVM on which every call succeeds; [GetEnv] hands out environment 7. *)
Definition jvm_ok : jvm_host unit := fun R c h =>
  match c in jvm_call R return R * unit with
  | GetEnv _ _ => ((JNI_OK, 7%N), h)
  | AddCapabilities _ _ => (JVMTI_ERROR_NONE, h)
  | SetEventCallbacks _ _ => (JVMTI_ERROR_NONE, h)
  | SetHeapSamplingInterval _ _ => (JVMTI_ERROR_NONE, h)
  | SetEventNotificationMode _ _ _ _ => (JVMTI_ERROR_NONE, h)
  | GetErrorName _ _ => ((JVMTI_ERROR_NONE, Some "JVMTI_ERROR_NONE"), h)
  | Deallocate _ _ => (JVMTI_ERROR_NONE, h)
  end.

(** A scripted JVM: its state is the list of status codes still to hand out,
    one per start-up step ([0] once the script is used up); [names] tells
    whether [GetErrorName] knows a name. *)
Definition next_status (script : list Z) : Z * list Z :=
  match script with
  | [] => (0, [])
  | s :: rest => (s, rest)
  end.

Definition jvm_scripted (names : bool) : jvm_host (list Z) := fun R c h =>
  match c in jvm_call R return R * list Z with
  | GetEnv _ _ => let '(s, h') := next_status h in ((s, 7%N), h')
  | AddCapabilities _ _ => next_status h
  | SetEventCallbacks _ _ => next_status h
  | SetHeapSamplingInterval _ _ => next_status h
  | SetEventNotificationMode _ _ _ _ => next_status h
  | GetErrorName _ e =>
      if names then ((JVMTI_ERROR_NONE, Some ("JVMTI_ERROR_" +:+ pretty e)), h)
      else ((100, None), h)
  | Deallocate _ _ => (JVMTI_ERROR_NONE, h)
  end.

(** ** Specification-side notions *)

(** The sizes reported to one thread, in order, by a list of its actions. *)
Definition samples (acts : list action) : list Z := omap action_size acts.

(** The sum over the notifications of [max(I, s_i)], with [I = 262144]. *)
Definition sum_samples (acts : list action) : Z :=
  foldr (fun s acc => Z.max 262144 s + acc) 0 (samples acts).

(** The actions a schedule delivers on thread [t]. *)
Definition actions_on (t : thread) (sch : list (thread * action)) : list action :=
  (filter (fun ta : thread * action => ta.1 = t) sch).*2.

(** The counter of one thread as a function of its own history alone. *)
Definition step (a : action) (c : Z) : Z :=
  match a with
  | Notify _ _ _ _ _ size => JLong.add c (JLong.max kHeapSamplingIntervalLong size)
  | Query _ _ => c
  end.

(** Two notifications on thread 1 of a fresh process: the largest [jlong]
    as reported size, then size 0. *)
Definition near_overflow : world unit :=
  exec jvm_ok 1%nat (Notify 7%N 0%N 0%N 0%N 0%N JLong.max_value) (initial_world tt).
Definition past_overflow : world unit :=
  exec jvm_ok 1%nat (Notify 7%N 0%N 0%N 0%N 0%N 0) near_overflow.

(** *** Reading a trace of the start-up sequence *)

(** The start-up step an observed call belongs to: 1 obtain the JVMTI
    handle, 2 add the capability, 3 set the callbacks, 4 set the sampling
    interval, 5 enable the events.  Error reporting is no step. *)
Definition step_number (e : event) : option nat :=
  match e with
  | EvJvm c _ =>
      match c with
      | GetEnv _ _ => Some 1%nat
      | AddCapabilities _ _ => Some 2%nat
      | SetEventCallbacks _ _ => Some 3%nat
      | SetHeapSamplingInterval _ _ => Some 4%nat
      | SetEventNotificationMode _ _ _ _ => Some 5%nat
      | GetErrorName _ _ => None
      | Deallocate _ _ => None
      end
  | EvStderr _ => None
  end.

(** The status code a step came back with. *)
Definition step_status (e : event) : option Z :=
  match e with
  | EvJvm c r =>
      match c in jvm_call R return R -> option Z with
      | GetEnv _ _ => fun r => Some r.1
      | AddCapabilities _ _ => fun r => Some r
      | SetEventCallbacks _ _ => fun r => Some r
      | SetHeapSamplingInterval _ _ => fun r => Some r
      | SetEventNotificationMode _ _ _ _ => fun r => Some r
      | GetErrorName _ _ => fun _ => None
      | Deallocate _ _ => fun _ => None
      end r
  | EvStderr _ => None
  end.

(** A step has failed when [GetEnv] did not answer [JNI_OK], or a JVMTI
    function did not answer [JVMTI_ERROR_NONE]. *)
Definition step_failed (e : event) : bool :=
  match step_number e, step_status e with
  | Some 1%nat, Some s => negb (s =? JNI_OK)
  | Some _, Some s => negb (s =? JVMTI_ERROR_NONE)
  | _, _ => false
  end.

Definition steps_of (tr : list event) : list nat := omap step_number tr.

(** The lines written to [stderr]. *)
Definition stderr_of (tr : list event) : list string :=
  omap (fun e => match e with EvStderr text => Some text | EvJvm _ _ => None end) tr.

(** The error-name look-ups made. *)
Definition lookups_of (tr : list event) : list Z :=
  omap (fun e => match e with
                 | EvJvm (GetErrorName _ err) _ => Some err
                 | _ => None
                 end) tr.

(** Steps 2 to 5 of the initialization protocol on the environment [jvmti],
    each with the description reported when it fails. *)
Definition init_protocol (jvmti : handle) : list (jvm_call Z * string) :=
  [ (AddCapabilities jvmti {| can_generate_sampled_object_alloc_events := true |},
     "Failed to add JVMTI capabilities");
    (SetEventCallbacks jvmti {| cbs_SampledObjectAlloc := Some cb_SampledObjectAlloc |},
     "Failed to set JVMTI callbacks");
    (SetHeapSamplingInterval jvmti 262144,
     "Failed to set heap sampling interval");
    (SetEventNotificationMode jvmti JVMTI_ENABLE JVMTI_EVENT_SAMPLED_OBJECT_ALLOC nullptr,
     "Failed to enable JVMTI events") ].

Definition succeeded (cm : jvm_call Z * string) : event := EvJvm cm.1 JVMTI_ERROR_NONE.

(** What the JVM sees of error handling after step [c] answered [err]. *)
Definition report (jvmti : handle) (err : Z) (msg : string)
    (lookup_status : Z) (name : option string) (dealloc_status : Z) : list event :=
  [ EvJvm (GetErrorName jvmti err) (lookup_status, name);
    EvStderr (jvmti_error_line err (default "Unknown" name) msg);
    EvJvm (Deallocate jvmti name) dealloc_status ].

(** The three shapes a run of the start-up sequence can take: no JVMTI
    environment; the first [k] JVMTI steps succeed and the next one fails;
    all steps succeed. *)
Inductive attach_outcome (vm : handle) : Z -> list event -> Prop :=
| outcome_no_env status jvmti :
    status <> JNI_OK ->
    attach_outcome vm JNI_ERR
      [EvJvm (GetEnv vm JVMTI_VERSION_11) (status, jvmti); EvStderr getenv_error_line]
| outcome_step_failed jvmti k c msg err lookup_status name dealloc_status :
    init_protocol jvmti !! k = Some (c, msg) ->
    err <> JVMTI_ERROR_NONE ->
    attach_outcome vm JNI_ERR
      (EvJvm (GetEnv vm JVMTI_VERSION_11) (JNI_OK, jvmti)
       :: (succeeded <$> take k (init_protocol jvmti))
       ++ EvJvm c err :: report jvmti err msg lookup_status name dealloc_status)
| outcome_ok jvmti :
    attach_outcome vm JNI_OK
      (EvJvm (GetEnv vm JVMTI_VERSION_11) (JNI_OK, jvmti)
       :: (succeeded <$> init_protocol jvmti)).

(** *** Name buffers and environments in a trace *)

(** The buffers [GetErrorName] handed out, with the environment asked. *)
Definition names_returned (tr : list event) : list (handle * option string) :=
  omap (fun e =>
          match e with
          | EvJvm c r =>
              match c in jvm_call R return R -> option (handle * option string) with
              | GetErrorName jvmti _ => fun r => Some (jvmti, r.2)
              | _ => fun _ => None
              end r
          | EvStderr _ => None
          end) tr.

(** The buffers given back through [Deallocate], with the environment asked. *)
Definition deallocated (tr : list event) : list (handle * option string) :=
  omap (fun e =>
          match e with
          | EvJvm (Deallocate jvmti mem) _ => Some (jvmti, mem)
          | _ => None
          end) tr.

(** The [jvmtiEnv] a JVMTI function is called on. *)
Definition call_env (e : event) : option handle :=
  match e with
  | EvJvm c _ =>
      match c with
      | GetEnv _ _ => None
      | AddCapabilities jvmti _ => Some jvmti
      | SetEventCallbacks jvmti _ => Some jvmti
      | SetHeapSamplingInterval jvmti _ => Some jvmti
      | SetEventNotificationMode jvmti _ _ _ => Some jvmti
      | GetErrorName jvmti _ => Some jvmti
      | Deallocate jvmti _ => Some jvmti
      end
  | EvStderr _ => None
  end.

(** *** Threads running side by side

    The callback's [+=] is a load followed by a store, and the JVM runs the
    native functions of different threads at the same time.  [micro] performs
    the head effect of a program; a pool holds, for every thread, what is left
    of the native function it is in and the actions the JVM will deliver on it
    next; the scheduler picks the thread that moves. *)
Definition micro {H A : Type} (host : jvm_host H) (self : thread) (p : prog A)
    (w : world H) : prog A * world H * list event :=
  match p with
  | Ret a => (Ret a, w, [])
  | LoadTL k => (k (counter w self), w, [])
  | StoreTL v k =>
      (k, World (<[self := v]> (thread_allocations w)) (jvm_state w), [])
  | Stderr text k => (k, w, [EvStderr text])
  | Jvm c k =>
      let '(r, h') := host _ c (jvm_state w) in
      (k r, World (thread_allocations w) h', [EvJvm c r])
  end.

(** The native function an action enters; the value of a query is dropped. *)
Definition action_prog (a : action) : prog unit :=
  match a with
  | Notify jvmti jni thread_ object klass size =>
      SampledObjectAlloc jvmti jni thread_ object klass size
  | Query jni thiz =>
      (_ <- Java_com_google_idea_perf_AllocationSampling_countAllocationsForCurrentThread
              jni thiz ;;
       Ret tt)%prog
  end.

Definition pool : Type := gmap thread (prog unit * list action).

(** Every thread is between two native functions. *)
Definition start (work : gmap thread (list action)) : pool :=
  (fun acts => (Ret tt, acts)) <$> work.

(** Thread [t] moves: it performs the next load or store of the function it
    is in, or, having returned, enters the function of its next action. *)
Definition cstep {H : Type} (host : jvm_host H) (t : thread)
    (cfg : pool * world H) : pool * world H :=
  match cfg.1 !! t with
  | None => cfg
  | Some (Ret _, []) => cfg
  | Some (Ret _, a :: todo) => (<[t := (action_prog a, todo)]> cfg.1, cfg.2)
  | Some (p, todo) =>
      let '(p', w', _) := micro host t p cfg.2 in (<[t := (p', todo)]> cfg.1, w')
  end.

Definition crun {H : Type} (host : jvm_host H) (ts : list thread)
    (cfg : pool * world H) : pool * world H :=
  foldl (fun cfg t => cstep host t cfg) cfg ts.

(** Native code that touches the thread-local cell only. *)
Inductive tl_only {A : Type} : prog A -> Prop :=
| tl_Ret a : tl_only (Ret a)
| tl_LoadTL k : (forall v, tl_only (k v)) -> tl_only (LoadTL k)
| tl_StoreTL v k : tl_only k -> tl_only (StoreTL v k).

(** Left to itself from [cfg], every thread of the pool ends with the
    counter [target] names for it. *)
Definition finishes_as {H : Type} (host : jvm_host H) (target : thread -> Z)
    (cfg : pool * world H) : Prop :=
  forall t p todo,
    cfg.1 !! t = Some (p, todo) ->
    tl_only p /\
    counter (exec_thread host t todo (world_of (run host t p cfg.2))) t = target t.

(** [effects_left n p]: [p] returns after exactly [n] loads and stores. *)
Inductive effects_left {A : Type} : nat -> prog A -> Prop :=
| left_Ret a : effects_left 0 (Ret a)
| left_LoadTL n k : (forall v, effects_left n (k v)) -> effects_left (S n) (LoadTL k)
| left_StoreTL n v k : effects_left n k -> effects_left (S n) (StoreTL v k).

(** Thread [t] needs at most [m] more moves to return from its last action:
    one move to enter a native function, and at most two inside it. *)
Definition moves_left (t : thread) (pl : pool) (m : nat) : Prop :=
  exists p todo n,
    pl !! t = Some (p, todo) /\ effects_left n p /\ (n + 3 * length todo <= m)%nat.

(** Whether the character [c] occurs in [s]. *)
Fixpoint has_char (c : Ascii.ascii) (s : string) : bool :=
  match s with
  | EmptyString => false
  | String a s' => if decide (a = c) then true else has_char c s'
  end.

Definition open_paren : Ascii.ascii := Ascii.ascii_of_nat 40.

(** *** Proof steps for traces *)

(** Case analysis on the answer of the JVM to step [k + 2] in the run [Hrun]:
    a failure closes the goal with the second shape, a success goes on. *)
Ltac guarded_step host Hrun vm jvmti k :=
  match type of Hrun with
  | context [host ?R ?c ?h] =>
      let err := fresh "err" in
      destruct (host R c h) as [err ?];
      destruct (Z.eqb_spec err JVMTI_ERROR_NONE) as [->|?]; cbn in Hrun;
      [ | match type of Hrun with
          | context [host ?R' (GetErrorName ?j ?e) ?h'] =>
              destruct (host R' (GetErrorName j e) h') as [[? ?] ?]
          end;
          cbn in Hrun;
          match type of Hrun with
          | context [host ?R' (Deallocate ?j ?m) ?h'] =>
              destruct (host R' (Deallocate j m) h') as [? ?]
          end;
          cbn in Hrun; simplify_eq;
          split; [|done];
          match eval cbv in (init_protocol jvmti !! k) with
          | Some (?c0, ?msg) => by eapply (outcome_step_failed vm jvmti k c0 msg)
          end ]
  end.

(** Every way of cutting a concrete trace at one of its events. *)
Ltac cut_trace :=
  repeat match goal with
  | Heq : _ :: _ = ?pre ++ _ :: _ |- _ =>
      destruct pre as [|? pre]; cbn in Heq; simplify_eq
  | Heq : [] = ?pre ++ _ :: _ |- _ => destruct pre; discriminate Heq
  end.

(** ** Arithmetic of [jlong] *)

Lemma JLong_max_spec (a b : Z) : JLong.max a b = Z.max a b.
Proof. unfold JLong.max. destruct (Z.ltb_spec a b); lia. Qed.

Lemma JLong_wrap_in_range (z : Z) : JLong.in_range (JLong.wrap z).
Proof.
  unfold JLong.in_range, JLong.wrap, JLong.min_value, JLong.max_value, JLong.modulus.
  pose proof (Z.mod_pos_bound (z + 2 ^ 63) (2 ^ 64)). lia.
Qed.

Lemma JLong_wrap_small (z : Z) : JLong.in_range z -> JLong.wrap z = z.
Proof.
  unfold JLong.in_range, JLong.wrap, JLong.min_value, JLong.max_value, JLong.modulus.
  intros Hz. rewrite Z.mod_small; lia.
Qed.

Lemma JLong_wrap_congr (z : Z) : JLong.wrap z mod 2 ^ 64 = z mod 2 ^ 64.
Proof.
  unfold JLong.wrap, JLong.modulus.
  rewrite Zminus_mod, Z.mod_mod by lia.
  rewrite <- Zminus_mod. f_equal. lia.
Qed.

Lemma JLong_wrap_add_wrap (x y : Z) : JLong.wrap (JLong.wrap x + y) = JLong.wrap (x + y).
Proof.
  unfold JLong.wrap, JLong.modulus. f_equal.
  replace ((x + 2 ^ 63) mod 2 ^ 64 - 2 ^ 63 + y + 2 ^ 63)
    with ((x + 2 ^ 63) mod 2 ^ 64 + y) by lia.
  rewrite Zplus_mod_idemp_l. f_equal. lia.
Qed.

Lemma interval_value : kHeapSamplingIntervalLong = 262144.
Proof. reflexivity. Qed.

(** ** The two steady-state operations, run *)

Section Counters.
Context {H : Type} (host : jvm_host H).

Lemma run_SampledObjectAlloc self jvmti jni thread_ object klass size (w : world H) :
  run host self (SampledObjectAlloc jvmti jni thread_ object klass size) w
  = (tt,
     World (<[self := JLong.add (counter w self) (JLong.max 262144 size)]>
              (thread_allocations w)) (jvm_state w),
     []).
Proof. reflexivity. Qed.

Lemma run_countAllocationsForCurrentThread self jni thiz (w : world H) :
  run host self
    (Java_com_google_idea_perf_AllocationSampling_countAllocationsForCurrentThread
       jni thiz) w
  = (counter w self, w, []).
Proof. reflexivity. Qed.

Lemma counter_SampledObjectAlloc self jvmti jni thread_ object klass size (w : world H) :
  counter (world_of (run host self
             (SampledObjectAlloc jvmti jni thread_ object klass size) w)) self
  = JLong.wrap (counter w self + Z.max 262144 size).
Proof.
  rewrite run_SampledObjectAlloc. unfold world_of, counter at 1; cbn.
  rewrite lookup_insert_eq; cbn. unfold JLong.add. by rewrite JLong_max_spec.
Qed.

Lemma exec_Query self jni thiz (w : world H) : exec host self (Query jni thiz) w = w.
Proof. reflexivity. Qed.

Lemma counter_exec self a (w : world H) t :
  counter (exec host self a w) t
  = if decide (t = self) then step a (counter w self) else counter w t.
Proof.
  destruct a as [jvmti jni thread_ object klass size|jni thiz]; cbn.
  - unfold counter at 1; cbn. case_decide as Ht.
    + subst t. by rewrite lookup_insert_eq.
    + by rewrite lookup_insert_ne.
  - by case_decide; subst.
Qed.

Lemma jvm_state_exec self a (w : world H) :
  jvm_state (exec host self a w) = jvm_state w.
Proof. by destruct a. Qed.

Lemma sum_samples_cons a acts :
  sum_samples (a :: acts) = sum_samples [a] + sum_samples acts.
Proof. unfold sum_samples, samples; cbn. destruct (action_size a); cbn; lia. Qed.

Lemma sum_samples_app l1 l2 :
  sum_samples (l1 ++ l2) = sum_samples l1 + sum_samples l2.
Proof.
  induction l1 as [|a l1 IH]; [done|].
  rewrite <- app_comm_cons, (sum_samples_cons a l1), (sum_samples_cons a (l1 ++ l2)). lia.
Qed.

Lemma sum_samples_nonneg acts : 0 <= sum_samples acts.
Proof.
  induction acts as [|a acts IH]; [done|].
  rewrite sum_samples_cons. unfold sum_samples at 1, samples; cbn.
  destruct (action_size a); cbn; lia.
Qed.

Lemma exec_thread_snoc self acts a (w : world H) :
  exec_thread host self (acts ++ [a]) w = exec host self a (exec_thread host self acts w).
Proof. unfold exec_thread. by rewrite foldl_app. Qed.

Lemma step_wrap a c :
  JLong.in_range c -> step a c = JLong.wrap (c + sum_samples [a]).
Proof.
  destruct a as [jvmti jni thread_ object klass size|jni thiz];
    unfold sum_samples; cbn; intros Hr.
  - unfold JLong.add. rewrite JLong_max_spec, interval_value. f_equal. lia.
  - rewrite JLong_wrap_small; [lia|]. by rewrite Z.add_0_r.
Qed.

(** The counter of a thread is its start value plus the sum over its
    notifications, brought back into [jlong]. *)
Lemma counter_exec_thread_wrap self acts (w : world H) :
  JLong.in_range (counter w self) ->
  counter (exec_thread host self acts w) self
  = JLong.wrap (counter w self + sum_samples acts).
Proof.
  intros Hr. induction acts as [|a acts IH] using rev_ind.
  - unfold sum_samples; cbn. rewrite JLong_wrap_small; [lia|]. by rewrite Z.add_0_r.
  - rewrite exec_thread_snoc, counter_exec, decide_True by done.
    rewrite step_wrap, IH by (rewrite IH; apply JLong_wrap_in_range).
    rewrite JLong_wrap_add_wrap, sum_samples_app. f_equal. lia.
Qed.

(** Without overflow no reduction takes place. *)
Lemma counter_exec_thread self acts (w : world H) :
  JLong.min_value <= counter w self ->
  counter w self + sum_samples acts <= JLong.max_value ->
  counter (exec_thread host self acts w) self = counter w self + sum_samples acts.
Proof.
  intros Hlo Hhi. pose proof (sum_samples_nonneg acts).
  rewrite counter_exec_thread_wrap by (unfold JLong.in_range; lia).
  apply JLong_wrap_small. unfold JLong.in_range. lia.
Qed.

Lemma counter_exec_thread_no_samples self acts (w : world H) :
  samples acts = [] ->
  counter (exec_thread host self acts w) self = counter w self.
Proof.
  revert w. induction acts as [|a acts IH]; intros w Hs; [done|].
  destruct a as [jvmti jni thread_ object klass size|jni thiz]; [done|].
  cbn. apply IH. exact Hs.
Qed.

Lemma sum_samples_replicate n a :
  sum_samples (replicate n a) = Z.of_nat n * sum_samples [a].
Proof.
  induction n as [|n IH]; [done|].
  rewrite Nat2Z.inj_succ. cbn [replicate]. rewrite sum_samples_cons, IH. lia.
Qed.

(** Thread [t] sees of a schedule only its own actions. *)
Lemma counter_exec_schedule sch t (w : world H) :
  counter (exec_schedule host sch w) t
  = counter (exec_thread host t (actions_on t sch) w) t.
Proof.
  induction sch as [|[u a] sch IH] using rev_ind; [done|].
  unfold exec_schedule, actions_on in *.
  rewrite foldl_app, filter_app, fmap_app; cbn.
  rewrite counter_exec.
  destruct (decide (t = u)) as [->|Hne].
  - rewrite decide_True by done; cbn.
    by rewrite exec_thread_snoc, counter_exec, decide_True, <- IH.
  - rewrite decide_False by congruence. cbn. rewrite app_nil_r. apply IH.
Qed.

End Counters.

(** ** The counter: claims *)

(** Scenarios of the specification, with interval 262144. *)
Example scenario_size_below_interval :
  counter (exec jvm_ok 1%nat (Notify 7%N 0%N 0%N 0%N 0%N 100000) (initial_world tt)) 1%nat
  = 262144.
Proof. reflexivity. Qed.

Example scenario_size_above_interval :
  counter (exec jvm_ok 1%nat (Notify 7%N 0%N 0%N 0%N 0%N 500000) (initial_world tt)) 1%nat
  = 500000.
Proof. reflexivity. Qed.

Example scenario_ten_notifications :
  query jvm_ok 1%nat
    (exec_thread jvm_ok 1%nat (replicate 10 (Notify 7%N 0%N 0%N 0%N 0%N 0)) (initial_world tt))
  = 2621440.
Proof. reflexivity. Qed.

(** C1, as stated, fails when the addition leaves [jlong]: on a thread whose
    counter holds the largest [jlong], one more notification of size 0 does
    not add 262144, it lowers the counter. *)
Lemma SampledObjectAlloc_increment_overflows :
  counter near_overflow 1%nat = JLong.max_value /\
  past_overflow
    = world_of (run jvm_ok 1%nat (SampledObjectAlloc 7%N 0%N 0%N 0%N 0%N 0) near_overflow) /\
  counter past_overflow 1%nat <> counter near_overflow 1%nat + Z.max 262144 0 /\
  counter past_overflow 1%nat < counter near_overflow 1%nat.
Proof. vm_compute. repeat split; congruence. Qed.

(** C1 (amended): for every reported size [s], one run of
    [SampledObjectAlloc] adds exactly [max(262144, s)] to the counter of the
    thread it runs on, provided that sum is representable as a [jlong]. *)
Theorem SampledObjectAlloc_adds_max {H : Type} (host : jvm_host H) (self : thread)
    (jvmti jni thread_ object klass : handle) (size : Z) (w : world H) :
  JLong.in_range (counter w self + Z.max 262144 size) ->
  counter (world_of (run host self
             (SampledObjectAlloc jvmti jni thread_ object klass size) w)) self
  = counter w self + Z.max 262144 size.
Proof.
  intros Hr. rewrite counter_SampledObjectAlloc. by apply JLong_wrap_small.
Qed.

Lemma SampledObjectAlloc_adds_max_witness :
  JLong.in_range (counter (initial_world tt) 1%nat + Z.max 262144 500000) /\
  counter (world_of (run jvm_ok 1%nat
             (SampledObjectAlloc 7%N 0%N 1%N 2%N 3%N 500000) (initial_world tt))) 1%nat
  = counter (initial_world tt) 1%nat + Z.max 262144 500000.
Proof.
  assert (Hr : JLong.in_range (counter (initial_world tt) 1%nat + Z.max 262144 500000)).
  { vm_compute. split; discriminate. }
  split; [exact Hr|].
  exact (SampledObjectAlloc_adds_max jvm_ok 1%nat 7%N 0%N 1%N 2%N 3%N 500000
           (initial_world tt) Hr).
Defined.

(** C2, as stated, fails once the sum leaves [jlong]: after the two
    notifications of sizes [2^63 - 1] and [0] the counter is not the sum
    [(2^63 - 1) + 262144]. *)
Lemma counter_sum_overflows :
  let acts := [Notify 7%N 0%N 0%N 0%N 0%N JLong.max_value; Notify 7%N 0%N 0%N 0%N 0%N 0] in
  sum_samples acts = 2 ^ 63 - 1 + 262144 /\
  counter (exec_thread jvm_ok 1%nat acts (initial_world tt)) 1%nat = - 2 ^ 63 + 262143 /\
  counter (exec_thread jvm_ok 1%nat acts (initial_world tt)) 1%nat <> sum_samples acts.
Proof. vm_compute. repeat split; congruence. Qed.

(** C2 (amended): for every sequence of notifications (and queries) run on
    one thread of a fresh process, the counter afterwards is the sum of
    [max(262144, s_i)] reduced to a [jlong], and it is that sum itself
    whenever the sum does not exceed [2^63 - 1]; nothing resets it. *)
Theorem counter_is_sum_of_samples {H : Type} (host : jvm_host H) (self : thread)
    (acts : list action) (h : H) :
  counter (exec_thread host self acts (initial_world h)) self
    = JLong.wrap (sum_samples acts) /\
  (sum_samples acts <= JLong.max_value ->
   counter (exec_thread host self acts (initial_world h)) self = sum_samples acts).
Proof.
  split.
  - rewrite counter_exec_thread_wrap by (vm_compute; split; discriminate). done.
  - intros Hs. rewrite counter_exec_thread; [done|done|]. exact Hs.
Qed.

Lemma counter_is_sum_of_samples_witness :
  let acts := replicate 10 (Notify 7%N 0%N 0%N 0%N 0%N 0) in
  sum_samples acts <= JLong.max_value /\
  counter (exec_thread jvm_ok 1%nat acts (initial_world tt)) 1%nat = sum_samples acts /\
  sum_samples acts = 2621440.
Proof.
  assert (Hs : sum_samples (replicate 10 (Notify 7%N 0%N 0%N 0%N 0%N 0)) <= JLong.max_value).
  { vm_compute. discriminate. }
  split; [exact Hs|]. split; [|reflexivity].
  exact (proj2 (counter_is_sum_of_samples jvm_ok 1%nat
                  (replicate 10 (Notify 7%N 0%N 0%N 0%N 0%N 0)) tt) Hs).
Defined.

(** C3: the accessor returns the counter of the thread it is called on, and
    0 on a thread to which no notification was delivered, whatever ran on the
    other threads. *)
Theorem countAllocations_returns_counter {H : Type} (host : jvm_host H)
    (self : thread) (jni thiz : handle) :
  (forall w : world H,
     result_of (run host self (countAllocationsForCurrentThread jni thiz) w)
     = counter w self) /\
  (forall (sch : list (thread * action)) (h : H),
     samples (actions_on self sch) = [] ->
     result_of (run host self (countAllocationsForCurrentThread jni thiz)
                  (exec_schedule host sch (initial_world h))) = 0).
Proof.
  split; [done|]. intros sch h Hs.
  rewrite run_countAllocationsForCurrentThread. unfold result_of; cbn.
  by rewrite counter_exec_schedule, counter_exec_thread_no_samples.
Qed.

Lemma countAllocations_returns_counter_witness :
  let sch := [(1%nat, Notify 7%N 0%N 0%N 0%N 0%N 4096); (2%nat, Query 0%N 0%N);
              (3%nat, Notify 7%N 0%N 0%N 0%N 0%N 500000)] in
  samples (actions_on 2%nat sch) = [] /\
  result_of (run jvm_ok 2%nat (countAllocationsForCurrentThread 0%N 0%N)
               (exec_schedule jvm_ok sch (initial_world tt))) = 0.
Proof.
  split; [reflexivity|].
  apply (proj2 (countAllocations_returns_counter jvm_ok 2%nat 0%N 0%N)).
  reflexivity.
Defined.

(** C4, as stated, fails at overflow: the notification of size 0 takes the
    counter from [2^63 - 1] down to [-2^63 + 262143]. *)
Lemma counter_decreases_at_overflow :
  let before := counter near_overflow 1%nat in
  let after := counter (exec jvm_ok 1%nat (Notify 7%N 0%N 0%N 0%N 0%N 0) near_overflow) 1%nat in
  before = 2 ^ 63 - 1 /\ after = - 2 ^ 63 + 262143 /\ ~ before <= after.
Proof. vm_compute. repeat split; congruence. Qed.

(** C4 (amended): along every sequence of notifications and queries on a
    thread, the counter after an operation is at least the counter before
    it, as long as the running total stays representable as a [jlong]. *)
Theorem counter_monotone_without_overflow {H : Type} (host : jvm_host H)
    (self : thread) (acts : list action) (a : action) (w : world H) :
  JLong.min_value <= counter w self ->
  counter w self + sum_samples (acts ++ [a]) <= JLong.max_value ->
  counter (exec_thread host self acts w) self
  <= counter (exec_thread host self (acts ++ [a]) w) self.
Proof.
  intros Hlo Hhi.
  pose proof (sum_samples_nonneg [a]) as Ha.
  rewrite sum_samples_app in Hhi.
  rewrite (counter_exec_thread host self (acts ++ [a])), sum_samples_app
    by (rewrite ?sum_samples_app; lia).
  rewrite (counter_exec_thread host self acts) by lia. lia.
Qed.

Lemma counter_monotone_without_overflow_witness :
  let acts := [Notify 7%N 0%N 0%N 0%N 0%N 100; Query 0%N 0%N] in
  let a := Notify 7%N 0%N 0%N 0%N 0%N 500000 in
  JLong.min_value <= counter (initial_world tt) 1%nat /\
  counter (initial_world tt) 1%nat + sum_samples (acts ++ [a]) <= JLong.max_value /\
  counter (exec_thread jvm_ok 1%nat acts (initial_world tt)) 1%nat
  <= counter (exec_thread jvm_ok 1%nat (acts ++ [a]) (initial_world tt)) 1%nat.
Proof.
  assert (Hlo : JLong.min_value <= counter (initial_world tt) 1%nat)
    by (vm_compute; discriminate).
  assert (Hhi : counter (initial_world tt) 1%nat
                + sum_samples ([Notify 7%N 0%N 0%N 0%N 0%N 100; Query 0%N 0%N]
                               ++ [Notify 7%N 0%N 0%N 0%N 0%N 500000])
                <= JLong.max_value)
    by (vm_compute; discriminate).
  split; [exact Hlo|]. split; [exact Hhi|].
  exact (counter_monotone_without_overflow jvm_ok 1%nat
           [Notify 7%N 0%N 0%N 0%N 0%N 100; Query 0%N 0%N]
           (Notify 7%N 0%N 0%N 0%N 0%N 500000) (initial_world tt) Hlo Hhi).
Defined.

(** C8: with the counters as a map from threads to integers, a notification
    on thread [a] writes the entry of [a] and no other, and what any other
    thread [b] reads back through the accessor is unchanged. *)
Theorem notification_frame {H : Type} (host : jvm_host H) (a b : thread)
    (jvmti jni thread_ object klass : handle) (size : Z) (w : world H) :
  a <> b ->
  let w' := world_of (run host a
              (SampledObjectAlloc jvmti jni thread_ object klass size) w) in
  (forall t : thread, t <> a -> thread_allocations w' !! t = thread_allocations w !! t) /\
  dom (thread_allocations w') = {[a]} ∪ dom (thread_allocations w) /\
  query host b w' = query host b w.
Proof.
  intros Hab w'. subst w'. rewrite run_SampledObjectAlloc. unfold world_of; cbn.
  split; [|split].
  - intros t Ht. by rewrite lookup_insert_ne.
  - by rewrite dom_insert_L.
  - unfold query, result_of; cbn. unfold counter; cbn. by rewrite lookup_insert_ne.
Qed.

Lemma notification_frame_witness :
  let w := exec jvm_ok 2%nat (Notify 7%N 0%N 0%N 0%N 0%N 300000) (initial_world tt) in
  let w' := world_of (run jvm_ok 1%nat (SampledObjectAlloc 7%N 0%N 0%N 0%N 0%N 4096) w) in
  1%nat <> 2%nat /\ query jvm_ok 2%nat w' = query jvm_ok 2%nat w /\
  query jvm_ok 2%nat w' = 300000.
Proof.
  assert (Hne : 1%nat <> 2%nat) by discriminate.
  split; [exact Hne|]. split; [|reflexivity].
  exact (proj2 (proj2 (notification_frame jvm_ok 1%nat 2%nat 7%N 0%N 0%N 0%N 0%N 4096
                         (exec jvm_ok 2%nat (Notify 7%N 0%N 0%N 0%N 0%N 300000)
                            (initial_world tt)) Hne))).
Defined.

(** Threads accumulate independently of how the JVM interleaves them. *)
Lemma query_exec_schedule {H : Type} (host : jvm_host H) (t : thread)
    (sch : list (thread * action)) (w : world H) :
  query host t (exec_schedule host sch w)
  = query host t (exec_thread host t (actions_on t sch) w).
Proof.
  unfold query. rewrite !run_countAllocationsForCurrentThread.
  apply counter_exec_schedule.
Qed.

(** C9: the counter is a [jlong] and the addition is unchecked: the new
    value is [c + max(262144, s)] modulo [2^64], read as a signed 64-bit
    value; a long enough run of notifications takes the counter below 0
    (here [2^45] notifications of size 0 on a fresh thread). *)
Theorem SampledObjectAlloc_wraps {H : Type} (host : jvm_host H) (self : thread)
    (jvmti jni thread_ object klass : handle) (size : Z) (w : world H) (h : H) :
  let c := counter w self in
  let c' := counter (world_of (run host self
              (SampledObjectAlloc jvmti jni thread_ object klass size) w)) self in
  (- 2 ^ 63 <= c' < 2 ^ 63 /\ c' mod 2 ^ 64 = (c + Z.max 262144 size) mod 2 ^ 64) /\
  counter (exec_thread host self
             (replicate (Z.to_nat (2 ^ 45)) (Notify jvmti jni thread_ object klass 0))
             (initial_world h)) self = - 2 ^ 63.
Proof.
  intros c c'. subst c c'. rewrite counter_SampledObjectAlloc.
  split; [split|].
  - pose proof (JLong_wrap_in_range (counter w self + Z.max 262144 size)) as Hr.
    unfold JLong.in_range, JLong.min_value, JLong.max_value in Hr. lia.
  - apply JLong_wrap_congr.
  - rewrite counter_exec_thread_wrap by (vm_compute; split; discriminate).
    rewrite sum_samples_replicate, Z2Nat.id by (vm_compute; discriminate).
    reflexivity.
Qed.

(** C10: the accessor is a read: it leaves the world as it was and is silent,
    and a second call returns what the first returned as long as no
    notification was delivered on that thread in between. *)
Theorem countAllocations_pure_read {H : Type} (host : jvm_host H)
    (self : thread) (jni thiz : handle) :
  (forall w : world H,
     world_of (run host self (countAllocationsForCurrentThread jni thiz) w) = w /\
     trace_of (run host self (countAllocationsForCurrentThread jni thiz) w) = []) /\
  (forall (sch : list (thread * action)) (w : world H),
     samples (actions_on self sch) = [] ->
     let first := run host self (countAllocationsForCurrentThread jni thiz) w in
     let second := run host self (countAllocationsForCurrentThread jni thiz)
                     (exec_schedule host sch (world_of first)) in
     result_of second = result_of first).
Proof.
  split; [done|]. intros sch w Hs first second. subst first second.
  rewrite !run_countAllocationsForCurrentThread. unfold result_of, world_of; cbn.
  by rewrite counter_exec_schedule, counter_exec_thread_no_samples.
Qed.

Lemma countAllocations_pure_read_witness :
  let w := exec jvm_ok 1%nat (Notify 7%N 0%N 0%N 0%N 0%N 300000) (initial_world tt) in
  let sch := [(2%nat, Notify 7%N 0%N 0%N 0%N 0%N 8); (1%nat, Query 0%N 0%N)] in
  samples (actions_on 1%nat sch) = [] /\
  result_of (run jvm_ok 1%nat (countAllocationsForCurrentThread 0%N 0%N)
    (exec_schedule jvm_ok sch
       (world_of (run jvm_ok 1%nat (countAllocationsForCurrentThread 0%N 0%N) w))))
  = result_of (run jvm_ok 1%nat (countAllocationsForCurrentThread 0%N 0%N) w).
Proof.
  split; [reflexivity|].
  apply (proj2 (countAllocations_pure_read jvm_ok 1%nat 0%N 0%N)).
  reflexivity.
Defined.

(** ** The start-up sequence *)

Section Startup.
Context {H : Type} (host : jvm_host H).

(** Running a sequence is running its parts one after the other. *)
Lemma run_bind {A B : Type} self (p : prog A) (f : A -> prog B) (w : world H) :
  run host self (bind p f) w
  = let '(a, w1, tr1) := run host self p w in
    let '(b, w2, tr2) := run host self (f a) w1 in
    (b, w2, tr1 ++ tr2).
Proof.
  revert w. induction p as [a|k IH|v k IH|text k IH|R c k IH]; intros w; cbn.
  - by destruct (run host self (f a) w) as [[b w2] tr2].
  - apply IH.
  - apply IH.
  - rewrite IH. destruct (run host self k w) as [[a w1] tr1].
    by destruct (run host self (f a) w1) as [[b w2] tr2].
  - destruct (host R c (jvm_state w)) as [r h']. rewrite IH.
    destruct (run host self (k r) _) as [[a w1] tr1].
    by destruct (run host self (f a) w1) as [[b w2] tr2].
Qed.

Lemma run_HandleJvmtiError_none self jvmti msg (w : world H) :
  run host self (HandleJvmtiError jvmti JVMTI_ERROR_NONE msg) w = (false, w, []).
Proof. reflexivity. Qed.

Lemma run_HandleJvmtiError_error self jvmti err msg (w : world H) :
  err <> JVMTI_ERROR_NONE ->
  exists lookup_status name dealloc_status h',
    run host self (HandleJvmtiError jvmti err msg) w
    = (true, World (thread_allocations w) h',
       report jvmti err msg lookup_status name dealloc_status).
Proof.
  intros Herr. unfold HandleJvmtiError.
  destruct (Z.eqb_spec err JVMTI_ERROR_NONE) as [|_]; [done|]. cbn.
  destruct (host _ (GetErrorName jvmti err) (jvm_state w)) as [[ls name] h1]; cbn.
  destruct (host _ (Deallocate jvmti name) h1) as [ds h2]; cbn.
  exists ls, name, ds, h2. by destruct name.
Qed.

(** Every run of [Agent_OnAttach] has one of the three shapes, and leaves
    the counters alone. *)
Lemma Agent_OnAttach_run self vm options reserved (w : world H) ret w' tr :
  run host self (Agent_OnAttach vm options reserved) w = (ret, w', tr) ->
  attach_outcome vm ret tr /\ thread_allocations w' = thread_allocations w.
Proof.
  unfold Agent_OnAttach, HandleJvmtiError. cbn. intros Hrun.
  destruct (host _ (GetEnv vm JVMTI_VERSION_11) (jvm_state w)) as [[status jvmti] h1].
  destruct (Z.eqb_spec status JNI_OK) as [->|Hstatus]; cbn in Hrun.
  2: { simplify_eq. split; [by apply outcome_no_env|done]. }
  guarded_step host Hrun vm jvmti 0%nat.
  guarded_step host Hrun vm jvmti 1%nat.
  guarded_step host Hrun vm jvmti 2%nat.
  guarded_step host Hrun vm jvmti 3%nat.
  simplify_eq. split; [apply outcome_ok|done].
Qed.

Lemma Agent_OnAttach_outcome self vm options reserved (w : world H) :
  let o := run host self (Agent_OnAttach vm options reserved) w in
  attach_outcome vm (result_of o) (trace_of o) /\
  thread_allocations (world_of o) = thread_allocations w.
Proof.
  cbv zeta. destruct (run host self _ w) as [[ret w'] tr] eqn:Hrun.
  by apply Agent_OnAttach_run in Hrun.
Qed.

End Startup.

Lemma failed_status (err : Z) :
  err <> JVMTI_ERROR_NONE -> negb (err =? JVMTI_ERROR_NONE) = true.
Proof. intros Herr. by destruct (Z.eqb_spec err JVMTI_ERROR_NONE). Qed.

(** The protocol read off the three shapes. *)
Lemma attach_outcome_protocol vm ret tr :
  attach_outcome vm ret tr ->
  (exists k, (1 <= k <= 5)%nat /\ steps_of tr = seq 1 k) /\
  (forall pre e post, tr = pre ++ e :: post -> step_failed e = true ->
     ret = JNI_ERR /\ steps_of post = []) /\
  (ret = JNI_OK <->
     steps_of tr = [1; 2; 3; 4; 5]%nat /\ forallb (fun e => negb (step_failed e)) tr = true) /\
  (ret = JNI_OK \/ ret = JNI_ERR).
Proof.
  intros [status jvmti Hstatus|jvmti k c msg err ls name ds Hk Herr|jvmti].
  - split; [exists 1%nat; split; [lia|reflexivity]|]. split; [|split; [|by right]].
    + intros pre e post Heq Hfail. cut_trace; done.
    + split; [done|]. by intros [? _].
  - pose proof (failed_status err Herr) as Hneg.
    destruct k as [|[|[|[|k]]]]; simplify_eq/=.
    all: split;
      [first [exists 2%nat; split; [lia|reflexivity] | exists 3%nat; split; [lia|reflexivity]
             | exists 4%nat; split; [lia|reflexivity] | exists 5%nat; split; [lia|reflexivity]]|].
    all: split; [|split; [|by right]].
    all: try (intros pre e post Heq Hfail; unfold report in Heq; cut_trace; done).
    all: split; [done|]; intros [_ Hall]; cbn in Hall; unfold step_failed in Hall;
      cbn in Hall; rewrite Hneg in Hall; done.
  - split; [exists 5%nat; split; [lia|reflexivity]|]. split; [|split; [|by left]].
    + intros pre e post Heq Hfail. cbn in Heq. cut_trace; done.
    + done.
Qed.

(** What follows a failed step, read off the three shapes. *)
Lemma attach_outcome_report vm ret tr pre e post :
  attach_outcome vm ret tr ->
  tr = pre ++ e :: post -> step_failed e = true ->
  stderr_of pre = [] /\
  ((step_number e = Some 1%nat /\ post = [EvStderr getenv_error_line]) \/
   (exists jvmti k c msg err lookup_status name dealloc_status,
      init_protocol jvmti !! k = Some (c, msg) /\
      e = EvJvm c err /\ err <> JVMTI_ERROR_NONE /\
      post = [EvJvm (GetErrorName jvmti err) (lookup_status, name);
              EvStderr ("JVMTI error: " +:+ pretty err +:+ "("
                        +:+ default "Unknown" name +:+ ") " +:+ msg +:+ newline);
              EvJvm (Deallocate jvmti name) dealloc_status])).
Proof.
  intros [status jvmti Hstatus|jvmti k c msg err ls name ds Hk Herr|jvmti] Heq Hfail.
  - cut_trace; try done. split; [done|]. by left.
  - destruct k as [|[|[|[|k]]]]; simplify_eq/=.
    all: unfold report in Heq; cut_trace; try done.
    all: split; [done|]; right.
    + by exists jvmti, 0%nat, (AddCapabilities jvmti
                {| can_generate_sampled_object_alloc_events := true |}),
        "Failed to add JVMTI capabilities", err, ls, name, ds.
    + by exists jvmti, 1%nat, (SetEventCallbacks jvmti
                {| cbs_SampledObjectAlloc := Some cb_SampledObjectAlloc |}),
        "Failed to set JVMTI callbacks", err, ls, name, ds.
    + by exists jvmti, 2%nat, (SetHeapSamplingInterval jvmti 262144),
        "Failed to set heap sampling interval", err, ls, name, ds.
    + by exists jvmti, 3%nat,
        (SetEventNotificationMode jvmti JVMTI_ENABLE JVMTI_EVENT_SAMPLED_OBJECT_ALLOC nullptr),
        "Failed to enable JVMTI events", err, ls, name, ds.
  - cbn in Heq. cut_trace; done.
Qed.

(** ** The start-up sequence: claims *)

(** C5: the five steps run in order; a step that fails is the last step run
    and makes [Agent_OnAttach] return [JNI_ERR]; [JNI_OK] is returned exactly
    when all five steps ran and none failed. *)
Theorem Agent_OnAttach_aborts_on_failure {H : Type} (host : jvm_host H)
    (self : thread) (vm : handle) (options : option string) (reserved : handle)
    (w : world H) :
  let o := run host self (Agent_OnAttach vm options reserved) w in
  (exists k, (1 <= k <= 5)%nat /\ steps_of (trace_of o) = seq 1 k) /\
  (forall pre e post, trace_of o = pre ++ e :: post -> step_failed e = true ->
     result_of o = JNI_ERR /\ steps_of post = []) /\
  (result_of o = JNI_OK <->
     steps_of (trace_of o) = [1; 2; 3; 4; 5]%nat /\
     forallb (fun e => negb (step_failed e)) (trace_of o) = true) /\
  (result_of o = JNI_OK \/ result_of o = JNI_ERR).
Proof.
  intros o. apply (attach_outcome_protocol vm).
  apply (Agent_OnAttach_outcome host self vm options reserved w).
Qed.

(** The scenario of the specification: "declare capability" fails. *)
Lemma Agent_OnAttach_aborts_on_failure_witness :
  let o := run (jvm_scripted true) 1%nat (Agent_OnAttach 3%N None 0%N)
             (initial_world [JNI_OK; 99]) in
  let pre := [EvJvm (GetEnv 3%N JVMTI_VERSION_11) (JNI_OK, 7%N)] in
  let e := EvJvm (AddCapabilities 7%N
                    {| can_generate_sampled_object_alloc_events := true |}) 99 in
  let post := report 7%N 99 "Failed to add JVMTI capabilities" JVMTI_ERROR_NONE
                (Some "JVMTI_ERROR_99") JVMTI_ERROR_NONE in
  trace_of o = pre ++ e :: post /\ step_failed e = true /\
  result_of o = JNI_ERR /\ steps_of post = [] /\ steps_of (trace_of o) = [1; 2]%nat.
Proof.
  split; [reflexivity|]. split; [reflexivity|].
  pose proof (proj1 (proj2 (Agent_OnAttach_aborts_on_failure (jvm_scripted true)
                1%nat 3%N None 0%N (initial_world [JNI_OK; 99])))
                [EvJvm (GetEnv 3%N JVMTI_VERSION_11) (JNI_OK, 7%N)]
                (EvJvm (AddCapabilities 7%N
                   {| can_generate_sampled_object_alloc_events := true |}) 99)
                (report 7%N 99 "Failed to add JVMTI capabilities" JVMTI_ERROR_NONE
                   (Some "JVMTI_ERROR_99") JVMTI_ERROR_NONE)
                eq_refl eq_refl) as [Hret Hpost].
  split; [exact Hret|]. split; [exact Hpost|reflexivity].
Defined.

(** C6, as stated, fails for the first step: when [GetEnv] answers
    [JNI_EVERSION] the one line written is the fixed text, no error name is
    looked up, and the line is not of the form carrying code and name. *)
Lemma getenv_failure_reports_no_code :
  let o := run (jvm_scripted true) 1%nat (Agent_OnAttach 3%N None 0%N)
             (initial_world [JNI_EVERSION]) in
  result_of o = JNI_ERR /\
  trace_of o = [EvJvm (GetEnv 3%N JVMTI_VERSION_11) (JNI_EVERSION, 7%N);
                EvStderr getenv_error_line] /\
  stderr_of (trace_of o) = ["Error retrieving JVMTI function table" +:+ newline] /\
  lookups_of (trace_of o) = [] /\
  (forall desc msg : string, getenv_error_line <> jvmti_error_line JNI_EVERSION desc msg).
Proof.
  repeat split. intros desc msg Heq. discriminate Heq.
Qed.

(** C6 (amended): a failure of one of the four JVMTI steps is reported by one
    line on [stderr] made of the numeric code, the name the JVM gives for
    that code, or "Unknown" when the look-up leaves no name, and the
    description of the step; the status of the look-up is not reported.  A
    failure to obtain the JVMTI environment is reported by a fixed line. *)
Theorem failure_is_reported {H : Type} (host : jvm_host H)
    (self : thread) (vm : handle) (options : option string) (reserved : handle)
    (w : world H) (pre : list event) (e : event) (post : list event) :
  trace_of (run host self (Agent_OnAttach vm options reserved) w) = pre ++ e :: post ->
  step_failed e = true ->
  stderr_of pre = [] /\
  ((step_number e = Some 1%nat /\ post = [EvStderr getenv_error_line]) \/
   (exists jvmti k c msg err lookup_status name dealloc_status,
      init_protocol jvmti !! k = Some (c, msg) /\
      e = EvJvm c err /\ err <> JVMTI_ERROR_NONE /\
      post = [EvJvm (GetErrorName jvmti err) (lookup_status, name);
              EvStderr ("JVMTI error: " +:+ pretty err +:+ "("
                        +:+ default "Unknown" name +:+ ") " +:+ msg +:+ newline);
              EvJvm (Deallocate jvmti name) dealloc_status])).
Proof.
  intros Heq Hfail.
  destruct (Agent_OnAttach_outcome host self vm options reserved w) as [Hout _].
  exact (attach_outcome_report vm _ _ pre e post Hout Heq Hfail).
Qed.

(** The look-up fails (status 100, no name): one line, with "Unknown". *)
Lemma failure_is_reported_witness :
  let o := run (jvm_scripted false) 1%nat (Agent_OnAttach 3%N None 0%N)
             (initial_world [JNI_OK; 0; 0; -5]) in
  let pre := firstn 3 (trace_of o) in
  let e := EvJvm (SetHeapSamplingInterval 7%N 262144) (-5) in
  let post := skipn 4 (trace_of o) in
  trace_of o = pre ++ e :: post /\ step_failed e = true /\
  stderr_of (trace_of o)
  = ["JVMTI error: -5(Unknown) Failed to set heap sampling interval" +:+ newline] /\
  lookups_of (trace_of o) = [-5] /\
  stderr_of pre = [].
Proof.
  split; [reflexivity|]. split; [reflexivity|].
  split; [reflexivity|]. split; [reflexivity|].
  refine (proj1 (failure_is_reported (jvm_scripted false) 1%nat 3%N None 0%N
            (initial_world [JNI_OK; 0; 0; -5])
            (firstn 3 (trace_of (run (jvm_scripted false) 1%nat (Agent_OnAttach 3%N None 0%N)
                                   (initial_world [JNI_OK; 0; 0; -5]))))
            (EvJvm (SetHeapSamplingInterval 7%N 262144) (-5))
            (skipn 4 (trace_of (run (jvm_scripted false) 1%nat (Agent_OnAttach 3%N None 0%N)
                                  (initial_world [JNI_OK; 0; 0; -5])))) _ _));
    reflexivity.
Defined.

(** C7: for all arguments, every JVM and every state, [Agent_OnLoad] returns
    the status [Agent_OnAttach] returns, leaves the same state and makes the
    same calls and the same output. *)
Theorem Agent_OnLoad_delegates {H : Type} (host : jvm_host H)
    (self : thread) (vm : handle) (options : option string) (reserved : handle)
    (w : world H) :
  run host self (Agent_OnLoad vm options reserved) w
  = run host self (Agent_OnAttach vm options reserved) w.
Proof.
  unfold Agent_OnLoad. rewrite run_bind.
  destruct (run host self (Agent_OnAttach vm options reserved) w) as [[status w1] tr1].
  cbn. by rewrite app_nil_r.
Qed.

(** A start-up on which every step succeeds. *)
Example Agent_OnLoad_success :
  run jvm_ok 1%nat (Agent_OnLoad 3%N None 0%N) (initial_world tt)
  = (JNI_OK, initial_world tt,
     EvJvm (GetEnv 3%N JVMTI_VERSION_11) (JNI_OK, 7%N) :: (succeeded <$> init_protocol 7%N)).
Proof. reflexivity. Qed.

(** ** More on the start-up sequence *)

(** X1: [HandleJvmtiError] returns [true] exactly when the code is not
    [JVMTI_ERROR_NONE]; on [JVMTI_ERROR_NONE] it calls nothing, prints nothing
    and changes nothing; otherwise it looks the name up once, prints one line
    and gives the very buffer it got back to [Deallocate].  It never touches
    the counters. *)
Theorem HandleJvmtiError_contract {H : Type} (host : jvm_host H) (self : thread)
    (jvmti : handle) (err : Z) (msg : string) (w : world H) :
  let o := run host self (HandleJvmtiError jvmti err msg) w in
  result_of o = negb (err =? JVMTI_ERROR_NONE) /\
  thread_allocations (world_of o) = thread_allocations w /\
  if err =? JVMTI_ERROR_NONE
  then world_of o = w /\ trace_of o = []
  else exists lookup_status name dealloc_status,
         trace_of o = report jvmti err msg lookup_status name dealloc_status.
Proof.
  intros o. subst o. destruct (Z.eqb_spec err JVMTI_ERROR_NONE) as [->|Herr].
  - by rewrite run_HandleJvmtiError_none.
  - destruct (run_HandleJvmtiError_error host self jvmti err msg w Herr)
      as (ls & name & ds & h' & ->).
    repeat split. by exists ls, name, ds.
Qed.

(** X2: neither entry point writes a counter, whether start-up succeeds or
    fails: attaching again does not reset what a thread has accumulated. *)
Theorem startup_keeps_counters {H : Type} (host : jvm_host H) (self : thread)
    (vm : handle) (options : option string) (reserved : handle) (w : world H) :
  thread_allocations (world_of (run host self (Agent_OnAttach vm options reserved) w))
  = thread_allocations w /\
  thread_allocations (world_of (run host self (Agent_OnLoad vm options reserved) w))
  = thread_allocations w.
Proof.
  pose proof (Agent_OnAttach_outcome host self vm options reserved w) as [_ Hkeep].
  split; [exact Hkeep|].
  unfold Agent_OnLoad. rewrite run_bind.
  destruct (run host self (Agent_OnAttach vm options reserved) w) as [[status w1] tr1].
  exact Hkeep.
Qed.

(** X3: when [Agent_OnAttach] returns [JNI_OK], what the JVM saw is exactly:
    [GetEnv] for JVMTI version 11 on [vm], then, on the environment it got,
    the capability for sampled allocation events, the [SampledObjectAlloc]
    callback, the interval 262144 and the enabling of the event for all
    threads, each answered [JVMTI_ERROR_NONE]; nothing else was called. *)
Theorem successful_startup_trace {H : Type} (host : jvm_host H) (self : thread)
    (vm : handle) (options : option string) (reserved : handle) (w : world H) :
  let o := run host self (Agent_OnAttach vm options reserved) w in
  result_of o = JNI_OK ->
  exists jvmti,
    trace_of o
    = [ EvJvm (GetEnv vm 0x300B0000) (JNI_OK, jvmti);
        EvJvm (AddCapabilities jvmti
                 {| can_generate_sampled_object_alloc_events := true |}) JVMTI_ERROR_NONE;
        EvJvm (SetEventCallbacks jvmti
                 {| cbs_SampledObjectAlloc := Some cb_SampledObjectAlloc |}) JVMTI_ERROR_NONE;
        EvJvm (SetHeapSamplingInterval jvmti 262144) JVMTI_ERROR_NONE;
        EvJvm (SetEventNotificationMode jvmti JVMTI_ENABLE
                 JVMTI_EVENT_SAMPLED_OBJECT_ALLOC nullptr) JVMTI_ERROR_NONE ].
Proof.
  intros o. subst o.
  destruct (Agent_OnAttach_outcome host self vm options reserved w) as [Hout _].
  destruct Hout as [status jvmti Hstatus|jvmti k c msg err ls name ds Hk Herr|jvmti];
    intros Hret; try discriminate Hret.
  by exists jvmti.
Qed.

Lemma successful_startup_trace_witness :
  let o := run jvm_ok 1%nat (Agent_OnAttach 3%N (Some "interval=1") 0%N) (initial_world tt) in
  result_of o = JNI_OK /\ length (trace_of o) = 5%nat /\
  exists jvmti, trace_of o !! 3%nat = Some (EvJvm (SetHeapSamplingInterval jvmti 262144) 0).
Proof.
  split; [reflexivity|]. split; [reflexivity|].
  destruct (successful_startup_trace jvm_ok 1%nat 3%N (Some "interval=1") 0%N
              (initial_world tt) eq_refl) as [jvmti Htr].
  exists jvmti. rewrite Htr. reflexivity.
Defined.

(** What the three shapes say about [stderr], name buffers and environments. *)
Lemma attach_outcome_output vm ret tr :
  attach_outcome vm ret tr ->
  (stderr_of tr = [] <-> ret = JNI_OK) /\
  (ret = JNI_ERR <-> length (stderr_of tr) = 1%nat) /\
  deallocated tr = names_returned tr /\
  (length (names_returned tr) <= 1)%nat /\
  exists status jvmti rest,
    tr = EvJvm (GetEnv vm JVMTI_VERSION_11) (status, jvmti) :: rest /\
    steps_of rest = seq 2 (length (steps_of rest)) /\
    Forall (fun e => call_env e = None \/ call_env e = Some jvmti) rest.
Proof.
  intros [status jvmti Hstatus|jvmti k c msg err ls name ds Hk Herr|jvmti].
  2: destruct k as [|[|[|[|k]]]]; simplify_eq/=.
  all: unfold report.
  all: split; [split; intros Hd; first [discriminate Hd | reflexivity]|].
  all: split; [split; intros Hd; first [discriminate Hd | reflexivity]|].
  all: split; [reflexivity|]. all: split; [cbn; lia|].
  all: eexists _, _, _; split; [reflexivity|]; split; [reflexivity|].
  all: repeat (apply Forall_cons; split; [first [by left | by right]|]).
  all: by apply Forall_nil.
Qed.

(** X4: [Agent_OnAttach] writes nothing to [stderr] exactly when it returns
    [JNI_OK], and exactly one line when it returns [JNI_ERR]. *)
Theorem stderr_tells_failure {H : Type} (host : jvm_host H) (self : thread)
    (vm : handle) (options : option string) (reserved : handle) (w : world H) :
  let o := run host self (Agent_OnAttach vm options reserved) w in
  (stderr_of (trace_of o) = [] <-> result_of o = JNI_OK) /\
  (result_of o = JNI_ERR <-> length (stderr_of (trace_of o)) = 1%nat).
Proof.
  intros o. subst o.
  destruct (Agent_OnAttach_outcome host self vm options reserved w) as [Hout _].
  destruct (attach_outcome_output vm _ _ Hout) as (Hsilent & Hone & _).
  by split.
Qed.

(** X5: every name buffer [GetErrorName] hands out during start-up is given
    back through [Deallocate] on the same environment, in the same order, and
    nothing else is deallocated; at most one buffer is asked for. *)
Theorem names_are_released {H : Type} (host : jvm_host H) (self : thread)
    (vm : handle) (options : option string) (reserved : handle) (w : world H) :
  let o := run host self (Agent_OnAttach vm options reserved) w in
  deallocated (trace_of o) = names_returned (trace_of o) /\
  (length (names_returned (trace_of o)) <= 1)%nat.
Proof.
  intros o. subst o.
  destruct (Agent_OnAttach_outcome host self vm options reserved w) as [Hout _].
  destruct (attach_outcome_output vm _ _ Hout) as (_ & _ & Hrel & Hle & _).
  by split.
Qed.

(** X6: the first thing [Agent_OnAttach] does is one [GetEnv] on [vm] for
    JVMTI version 11; every JVMTI function called afterwards is called on the
    environment that [GetEnv] wrote, and [GetEnv] is not called again. *)
Theorem calls_use_returned_env {H : Type} (host : jvm_host H) (self : thread)
    (vm : handle) (options : option string) (reserved : handle) (w : world H) :
  let o := run host self (Agent_OnAttach vm options reserved) w in
  exists status jvmti rest,
    trace_of o = EvJvm (GetEnv vm JVMTI_VERSION_11) (status, jvmti) :: rest /\
    steps_of rest = seq 2 (length (steps_of rest)) /\
    Forall (fun e => call_env e = None \/ call_env e = Some jvmti) rest.
Proof.
  intros o. subst o.
  destruct (Agent_OnAttach_outcome host self vm options reserved w) as [Hout _].
  by destruct (attach_outcome_output vm _ _ Hout) as (_ & _ & _ & _ & Henv).
Qed.

(** ** More on the counter *)

Section Accumulation.
Context {H : Type} (host : jvm_host H).

(** The counter of a thread after its actions is the fold of [step] over
    them: it depends on the rest of the world in no way. *)
Lemma counter_exec_thread_fold self acts (w : world H) :
  counter (exec_thread host self acts w) self
  = foldl (fun c a => step a c) (counter w self) acts.
Proof.
  induction acts as [|a acts IH] using rev_ind; [done|].
  by rewrite exec_thread_snoc, counter_exec, decide_True, foldl_app, IH.
Qed.

Lemma step_comm a b c : step a (step b c) = step b (step a c).
Proof.
  destruct a as [? ? ? ? ? sa|? ?], b as [? ? ? ? ? sb|? ?]; cbn; try done.
  unfold JLong.add. rewrite !JLong_wrap_add_wrap. f_equal. lia.
Qed.

Lemma foldl_step_permutation acts1 acts2 :
  acts1 ≡ₚ acts2 ->
  forall c, foldl (fun c a => step a c) c acts1 = foldl (fun c a => step a c) c acts2.
Proof.
  induction 1 as [|a l1 l2 _ IH|a b l|l1 l2 l3 _ IH1 _ IH2]; intros c; cbn.
  - done.
  - apply IH.
  - by rewrite step_comm.
  - by rewrite IH1.
Qed.

Lemma sum_samples_small acts :
  Forall (fun s => s <= 262144) (samples acts) ->
  sum_samples acts = 262144 * Z.of_nat (length (samples acts)).
Proof.
  unfold sum_samples. induction 1 as [|s l Hs _ IH]; [done|].
  cbn [foldr length]. rewrite IH, Nat2Z.inj_succ. lia.
Qed.

Lemma sum_samples_lower acts :
  262144 * Z.of_nat (length (samples acts)) <= sum_samples acts.
Proof.
  unfold sum_samples. induction (samples acts) as [|s l IH]; [done|].
  cbn [foldr length]. rewrite Nat2Z.inj_succ. lia.
Qed.

End Accumulation.

(** X7: the order in which notifications (and queries) reach a thread does
    not matter for its counter, wrap-around included: any rearrangement of
    the same actions leaves the same value. *)
Theorem counter_order_irrelevant {H : Type} (host : jvm_host H) (self : thread)
    (acts1 acts2 : list action) (w : world H) :
  acts1 ≡ₚ acts2 ->
  counter (exec_thread host self acts1 w) self
  = counter (exec_thread host self acts2 w) self.
Proof.
  intros Hperm. rewrite !counter_exec_thread_fold.
  by apply foldl_step_permutation.
Qed.

Lemma counter_order_irrelevant_witness :
  let a := Notify 7%N 0%N 0%N 0%N 0%N JLong.max_value in
  let b := Notify 7%N 0%N 0%N 0%N 0%N 300000 in
  let q := Query 0%N 0%N in
  [a; q; b] ≡ₚ [b; a; q] /\
  counter (exec_thread jvm_ok 1%nat [a; q; b] (initial_world tt)) 1%nat
  = counter (exec_thread jvm_ok 1%nat [b; a; q] (initial_world tt)) 1%nat.
Proof.
  assert (Hperm : [Notify 7%N 0%N 0%N 0%N 0%N JLong.max_value; Query 0%N 0%N;
                   Notify 7%N 0%N 0%N 0%N 0%N 300000]
                  ≡ₚ [Notify 7%N 0%N 0%N 0%N 0%N 300000;
                      Notify 7%N 0%N 0%N 0%N 0%N JLong.max_value; Query 0%N 0%N]).
  { etrans; [apply perm_skip, perm_swap|]. apply perm_swap. }
  split; [exact Hperm|].
  exact (counter_order_irrelevant jvm_ok 1%nat _ _ (initial_world tt) Hperm).
Defined.

(** X8: in a fresh process, after any interleaving of the actions of any
    number of threads, the accessor on thread [t] returns the sum of
    [max(262144, s)] over the notifications delivered on [t], as a [jlong]. *)
Theorem schedule_totals {H : Type} (host : jvm_host H)
    (sch : list (thread * action)) (h : H) (t : thread) :
  query host t (exec_schedule host sch (initial_world h))
  = JLong.wrap (sum_samples (actions_on t sch)).
Proof.
  unfold query. rewrite run_countAllocationsForCurrentThread. unfold result_of; cbn.
  rewrite counter_exec_schedule, counter_exec_thread_wrap; [done|].
  vm_compute. split; discriminate.
Qed.

(** X9: when no reported size exceeds the interval (zero and negative sizes
    included), the counter of a fresh thread is 262144 times the number of
    notifications, as a [jlong]: the agent counts samples. *)
Theorem small_samples_count_intervals {H : Type} (host : jvm_host H) (self : thread)
    (acts : list action) (h : H) :
  Forall (fun s => s <= 262144) (samples acts) ->
  counter (exec_thread host self acts (initial_world h)) self
  = JLong.wrap (262144 * Z.of_nat (length (samples acts))).
Proof.
  intros Hsmall. rewrite counter_exec_thread_wrap by (vm_compute; split; discriminate).
  by rewrite sum_samples_small.
Qed.

Lemma small_samples_count_intervals_witness :
  let acts := [Notify 7%N 0%N 0%N 0%N 0%N (-8); Query 0%N 0%N;
               Notify 7%N 0%N 0%N 0%N 0%N 262144; Notify 7%N 0%N 0%N 0%N 0%N 0] in
  Forall (fun s => s <= 262144) (samples acts) /\
  counter (exec_thread jvm_ok 1%nat acts (initial_world tt)) 1%nat = 786432.
Proof.
  assert (Hsmall : Forall (fun s => s <= 262144)
            (samples [Notify 7%N 0%N 0%N 0%N 0%N (-8); Query 0%N 0%N;
                      Notify 7%N 0%N 0%N 0%N 0%N 262144; Notify 7%N 0%N 0%N 0%N 0%N 0])).
  { repeat (apply List.Forall_cons; [vm_compute; discriminate|]). apply List.Forall_nil. }
  split; [exact Hsmall|].
  exact (small_samples_count_intervals jvm_ok 1%nat _ tt Hsmall).
Defined.

(** X10: as long as the running total stays representable, the counter after
    a run of actions exceeds the counter before it by at least 262144 for
    every notification in the run; a single notification is never lost. *)
Theorem notifications_lower_bound {H : Type} (host : jvm_host H) (self : thread)
    (acts : list action) (w : world H) :
  JLong.min_value <= counter w self ->
  counter w self + sum_samples acts <= JLong.max_value ->
  counter w self + 262144 * Z.of_nat (length (samples acts))
  <= counter (exec_thread host self acts w) self.
Proof.
  intros Hlo Hhi. rewrite counter_exec_thread by done.
  pose proof (sum_samples_lower acts). lia.
Qed.

Lemma notifications_lower_bound_witness :
  let w := exec jvm_ok 1%nat (Notify 7%N 0%N 0%N 0%N 0%N 1000000) (initial_world tt) in
  let acts := [Notify 7%N 0%N 0%N 0%N 0%N 16; Query 0%N 0%N;
               Notify 7%N 0%N 0%N 0%N 0%N 300000] in
  JLong.min_value <= counter w 1%nat /\
  counter w 1%nat + sum_samples acts <= JLong.max_value /\
  1000000 + 262144 * 2 <= counter (exec_thread jvm_ok 1%nat acts w) 1%nat.
Proof.
  assert (Hlo : JLong.min_value
                <= counter (exec jvm_ok 1%nat (Notify 7%N 0%N 0%N 0%N 0%N 1000000)
                              (initial_world tt)) 1%nat)
    by (vm_compute; discriminate).
  assert (Hhi : counter (exec jvm_ok 1%nat (Notify 7%N 0%N 0%N 0%N 0%N 1000000)
                           (initial_world tt)) 1%nat
                + sum_samples [Notify 7%N 0%N 0%N 0%N 0%N 16; Query 0%N 0%N;
                               Notify 7%N 0%N 0%N 0%N 0%N 300000]
                <= JLong.max_value)
    by (vm_compute; discriminate).
  split; [exact Hlo|]. split; [exact Hhi|].
  exact (notifications_lower_bound jvm_ok 1%nat
           [Notify 7%N 0%N 0%N 0%N 0%N 16; Query 0%N 0%N;
            Notify 7%N 0%N 0%N 0%N 0%N 300000]
           (exec jvm_ok 1%nat (Notify 7%N 0%N 0%N 0%N 0%N 1000000) (initial_world tt))
           Hlo Hhi).
Defined.

(** ** Threads running side by side *)

Section Interleaving.
Context {H : Type} (host : jvm_host H).

(** A run is its first effect followed by the run of the rest. *)
Lemma micro_run {A : Type} t (p : prog A) (w : world H) :
  world_of (run host t p w)
  = world_of (run host t (micro host t p w).1.1 (micro host t p w).1.2).
Proof.
  destruct p as [a|k|v k|text k|R c k]; cbn; try done.
  - unfold world_of. by destruct (run host t k w) as [[a w'] tr].
  - unfold world_of. destruct (host R c (jvm_state w)) as [r h']; cbn.
    by destruct (run host t (k r) _) as [[a w'] tr].
Qed.

(** An effect of thread [u] leaves the cell of every other thread alone. *)
Lemma micro_other {A : Type} u t (p : prog A) (w : world H) :
  u <> t -> counter (micro host u p w).1.2 t = counter w t.
Proof.
  intros Hne. destruct p as [a|k|v k|text k|R c k]; cbn; try done.
  - unfold counter; cbn. by rewrite lookup_insert_ne.
  - by destruct (host R c (jvm_state w)) as [r h'].
Qed.

Lemma micro_tl_only {A : Type} t (p : prog A) (w : world H) :
  tl_only p -> tl_only (micro host t p w).1.1.
Proof. intros [a|k Hk|v k Hk]; cbn; [constructor|apply Hk|exact Hk]. Qed.

Lemma tl_only_action_prog a : tl_only (action_prog a).
Proof. destruct a; cbn; repeat constructor. Qed.

Lemma exec_action_prog t a (w : world H) :
  exec host t a w = world_of (run host t (action_prog a) w).
Proof. by destruct a. Qed.

(** Code that touches the cell only ends in a cell that depends on the cell
    it started from and on nothing else. *)
Lemma run_tl_only_counter {A : Type} t (p : prog A) (w1 w2 : world H) :
  tl_only p ->
  counter w1 t = counter w2 t ->
  counter (world_of (run host t p w1)) t = counter (world_of (run host t p w2)) t.
Proof.
  intros Hp. revert w1 w2. induction Hp as [a|k Hk IH|v k Hk IH]; intros w1 w2 Hc; cbn.
  - exact Hc.
  - rewrite Hc. by apply IH.
  - apply IH. unfold counter; cbn. by rewrite !lookup_insert_eq.
Qed.

Lemma exec_thread_counter_ext t acts (w1 w2 : world H) :
  counter w1 t = counter w2 t ->
  counter (exec_thread host t acts w1) t = counter (exec_thread host t acts w2) t.
Proof. intros Hc. by rewrite !counter_exec_thread_fold, Hc. Qed.

(** What a thread will end with is unchanged by a move of any thread. *)
Lemma cstep_finishes_as target u (cfg : pool * world H) :
  finishes_as host target cfg -> finishes_as host target (cstep host u cfg).
Proof.
  intros Hinv. destruct cfg as [pl w]. unfold cstep; cbn.
  destruct (pl !! u) as [[p todo]|] eqn:Hu; [|exact Hinv].
  destruct (Hinv u p todo Hu) as [Hp Hfin]; cbn in Hfin.
  assert (Hmove : finishes_as host target
            (<[u := ((micro host u p w).1.1, todo)]> pl, (micro host u p w).1.2)).
  { intros t p' todo' Hlook; cbn [fst snd] in *; unfold pool in *.
    destruct (decide (t = u)) as [->|Hne].
    - rewrite lookup_insert_eq in Hlook. simplify_eq.
      split; [by apply micro_tl_only|]. by rewrite <- micro_run.
    - rewrite lookup_insert_ne in Hlook by done.
      destruct (Hinv t p' todo' Hlook) as [Hp' Hfin']; cbn in Hfin'.
      split; [done|]. rewrite <- Hfin'.
      apply exec_thread_counter_ext, run_tl_only_counter; [done|].
      by apply micro_other. }
  destruct p as [[]|k|v k|text k|R c k].
  - destruct todo as [|a todo]; [exact Hinv|].
    intros t p' todo' Hlook; cbn [fst snd] in *; unfold pool in *.
    destruct (decide (t = u)) as [->|Hne].
    + rewrite lookup_insert_eq in Hlook. simplify_eq.
      split; [apply tl_only_action_prog|]. by rewrite <- exec_action_prog.
    + rewrite lookup_insert_ne in Hlook by done. exact (Hinv t p' todo' Hlook).
  - exact Hmove.
  - exact Hmove.
  - inversion Hp.
  - inversion Hp.
Qed.

Lemma crun_finishes_as target ts (cfg : pool * world H) :
  finishes_as host target cfg -> finishes_as host target (crun host ts cfg).
Proof.
  revert cfg. induction ts as [|u ts IH]; intros cfg Hinv; [exact Hinv|].
  cbn. apply IH. by apply cstep_finishes_as.
Qed.

Lemma start_finishes_as (work : gmap thread (list action)) (w : world H) :
  finishes_as host
    (fun t => counter (exec_thread host t (default [] (work !! t)) w) t)
    (start work, w).
Proof.
  intros t p todo Hlook. unfold start, pool in Hlook; cbn [fst snd] in Hlook.
  rewrite lookup_fmap in Hlook.
  destruct (work !! t) as [acts|]; simplify_eq/=.
  split; [constructor|done].
Qed.

End Interleaving.

(** X11: let every thread be given a list of notifications and queries, and
    let the loads and stores of the native functions of different threads
    interleave in any order whatever.  Once a thread has returned from its
    last action, its counter is the one it reaches when its actions run alone
    and undivided: the unsynchronised [+=] on the thread-local loses no
    update. *)
Theorem interleaving_loses_no_update {H : Type} (host : jvm_host H)
    (work : gmap thread (list action)) (ts : list thread) (w : world H)
    (t : thread) (acts : list action) :
  work !! t = Some acts ->
  (crun host ts (start work, w)).1 !! t = Some (Ret tt, []) ->
  counter (crun host ts (start work, w)).2 t
  = counter (exec_thread host t acts w) t.
Proof.
  intros Hwork Hdone.
  destruct (crun_finishes_as host _ ts _ (start_finishes_as host work w) t _ _ Hdone)
    as [_ Hfin].
  cbn in Hfin. by rewrite Hwork in Hfin.
Qed.

(** Two threads whose loads both come before either store. *)
Lemma interleaving_loses_no_update_witness :
  let work : gmap thread (list action) :=
    {[ 1%nat := [Notify 7%N 0%N 0%N 0%N 0%N 5; Notify 7%N 0%N 0%N 0%N 0%N 500000];
       2%nat := [Notify 7%N 0%N 0%N 0%N 0%N 0; Query 0%N 0%N] ]} in
  let ts := [1; 2; 1; 2; 1; 2; 2; 2; 1; 1; 1]%nat in
  work !! 1%nat = Some [Notify 7%N 0%N 0%N 0%N 0%N 5; Notify 7%N 0%N 0%N 0%N 0%N 500000] /\
  (crun jvm_ok ts (start work, initial_world tt)).1 !! 1%nat = Some (Ret tt, []) /\
  counter (crun jvm_ok ts (start work, initial_world tt)).2 1%nat = 762144.
Proof.
  split; [reflexivity|]. split; [reflexivity|].
  exact (interleaving_loses_no_update jvm_ok
           {[ 1%nat := [Notify 7%N 0%N 0%N 0%N 0%N 5; Notify 7%N 0%N 0%N 0%N 0%N 500000];
              2%nat := [Notify 7%N 0%N 0%N 0%N 0%N 0; Query 0%N 0%N] ]}
           [1; 2; 1; 2; 1; 2; 2; 2; 1; 1; 1]%nat (initial_world tt) 1%nat
           [Notify 7%N 0%N 0%N 0%N 0%N 5; Notify 7%N 0%N 0%N 0%N 0%N 500000]
           eq_refl eq_refl).
Defined.

Section Progress.
Context {H : Type} (host : jvm_host H).

Lemma effects_left_action_prog a : exists n, effects_left n (action_prog a) /\ (n <= 2)%nat.
Proof.
  destruct a; cbn.
  - exists 2%nat. split; [|lia]. repeat constructor.
  - exists 1%nat. split; [|lia]. repeat constructor.
Qed.

Lemma effects_left_micro {A : Type} t n (p : prog A) (w : world H) :
  effects_left (S n) p -> effects_left n (micro host t p w).1.1.
Proof. inversion 1; subst; cbn; auto. Qed.

(** A move of [t] brings it one move closer; a move of another thread does
    not set it back. *)
Lemma cstep_moves_left t u m (cfg : pool * world H) :
  moves_left t cfg.1 m ->
  moves_left t (cstep host u cfg).1 (if decide (u = t) then pred m else m).
Proof.
  intros (p & todo & n & Hlook & Hn & Hm). destruct cfg as [pl w]; cbn [fst snd] in *.
  unfold cstep; cbn [fst snd]. unfold moves_left, pool in *.
  destruct (decide (u = t)) as [->|Hne].
  - rewrite Hlook. destruct Hn as [[]|n k Hk|n v k Hk].
    + destruct todo as [|a todo]; cbn [fst].
      * exists (Ret tt), [], 0%nat. repeat split; [done|constructor|cbn; lia].
      * destruct (effects_left_action_prog a) as (n' & Hn' & Hle).
        exists (action_prog a), todo, n'. rewrite lookup_insert_eq.
        repeat split; [done|]. cbn [length] in Hm. lia.
    + cbn. exists (k (counter w t)), todo, n. rewrite lookup_insert_eq.
      repeat split; [apply Hk|lia].
    + cbn. exists k, todo, n. rewrite lookup_insert_eq.
      repeat split; [done|lia].
  - exists p, todo, n. split; [|done].
    destruct (pl !! u) as [[q qtodo]|] eqn:Hu; [|done].
    destruct q as [[]|k|v k|text k|R c k]; [destruct qtodo| | | |]; cbn [fst];
      try done; try by rewrite lookup_insert_ne.
    all: destruct (micro host u _ w) as [[q' w'] tr]; cbn [fst];
      by rewrite lookup_insert_ne.
Qed.

Lemma crun_moves_left t ts m (cfg : pool * world H) :
  moves_left t cfg.1 m ->
  moves_left t (crun host ts cfg).1 (m - length (filter (fun u => u = t) ts)).
Proof.
  revert m cfg. induction ts as [|u ts IH]; intros m cfg Hm.
  - cbn. by rewrite Nat.sub_0_r.
  - change (crun host (u :: ts) cfg) with (crun host ts (cstep host u cfg)).
    apply (cstep_moves_left t u) in Hm. apply IH in Hm.
    rewrite filter_cons. destruct (decide (u = t)); cbn [length]; [|done].
    by replace (m - S (length (filter (fun u => u = t) ts)))%nat
      with (pred m - length (filter (fun u => u = t) ts))%nat by lia.
Qed.

End Progress.

(** X12: both native functions are straight-line code: a thread that is
    given the processor three times for each of its actions, however these
    turns are interleaved with the turns of other threads, has returned from
    its last action, and its counter is then the one of its actions run
    alone. *)
Theorem scheduled_thread_finishes {H : Type} (host : jvm_host H)
    (work : gmap thread (list action)) (ts : list thread) (w : world H)
    (t : thread) (acts : list action) :
  work !! t = Some acts ->
  (3 * length acts <= length (filter (fun u => u = t) ts))%nat ->
  (crun host ts (start work, w)).1 !! t = Some (Ret tt, []) /\
  counter (crun host ts (start work, w)).2 t = counter (exec_thread host t acts w) t.
Proof.
  intros Hwork Hturns.
  assert (Hstart : moves_left t (start work, w).1 (3 * length acts)).
  { exists (Ret tt), acts, 0%nat. unfold start, pool; cbn [fst].
    rewrite lookup_fmap, Hwork. repeat split; [constructor|lia]. }
  apply (crun_moves_left host t ts) in Hstart.
  destruct Hstart as (p & todo & n & Hlook & Hn & Hm).
  assert (n = 0%nat) as -> by lia.
  destruct todo as [|a todo]; [|cbn [length] in Hm; lia].
  inversion Hn as [[] Hp| |]; subst p.
  split; [exact Hlook|].
  destruct (crun_finishes_as host _ ts _ (start_finishes_as host work w) t _ _ Hlook)
    as [_ Hfin].
  cbn in Hfin. by rewrite Hwork in Hfin.
Qed.

Lemma scheduled_thread_finishes_witness :
  let work : gmap thread (list action) :=
    {[ 1%nat := [Notify 7%N 0%N 0%N 0%N 0%N 5];
       2%nat := [Notify 7%N 0%N 0%N 0%N 0%N 0; Query 0%N 0%N] ]} in
  let ts := [2; 1; 2; 1; 2; 2; 1; 2; 2]%nat in
  work !! 2%nat = Some [Notify 7%N 0%N 0%N 0%N 0%N 0; Query 0%N 0%N] /\
  (3 * 2 <= length (filter (fun u => u = 2%nat) ts))%nat /\
  counter (crun jvm_ok ts (start work, initial_world tt)).2 2%nat = 262144.
Proof.
  assert (Hturns : (3 * length [Notify 7%N 0%N 0%N 0%N 0%N 0; Query 0%N 0%N]
                    <= length (filter (fun u => u = 2%nat) [2; 1; 2; 1; 2; 2; 1; 2; 2]%nat))%nat).
  { vm_compute. repeat constructor. }
  split; [reflexivity|]. split; [exact Hturns|].
  exact (proj2 (scheduled_thread_finishes jvm_ok
           {[ 1%nat := [Notify 7%N 0%N 0%N 0%N 0%N 5];
              2%nat := [Notify 7%N 0%N 0%N 0%N 0%N 0; Query 0%N 0%N] ]}
           [2; 1; 2; 1; 2; 2; 1; 2; 2]%nat (initial_world tt) 2%nat
           [Notify 7%N 0%N 0%N 0%N 0%N 0; Query 0%N 0%N] eq_refl Hturns)).
Defined.

(** ** The line [HandleJvmtiError] prints *)

Lemma pretty_N_char_no_paren (d : N) : pretty_N_char d <> open_paren.
Proof. unfold pretty_N_char. by repeat case_match. Qed.

Lemma pretty_N_go_no_paren (x : N) (s : string) :
  has_char open_paren s = false -> has_char open_paren (pretty_N_go x s) = false.
Proof.
  revert s. induction (N.lt_wf_0 x) as [x _ IH]; intros s Hs.
  destruct (decide (x = 0)%N) as [->|Hx]; [by rewrite pretty_N_go_0|].
  rewrite pretty_N_go_step by lia. apply IH.
  - apply N.div_lt; lia.
  - cbn. rewrite decide_False by apply pretty_N_char_no_paren. exact Hs.
Qed.

Lemma pretty_N_no_paren (x : N) : has_char open_paren (pretty x) = false.
Proof.
  unfold pretty, pretty_N. case_decide; [done|]. by apply pretty_N_go_no_paren.
Qed.

Lemma pretty_Z_no_paren (z : Z) : has_char open_paren (pretty z) = false.
Proof.
  destruct z as [|x|x]; unfold pretty, pretty_Z; [done| |].
  - apply (pretty_N_no_paren (N.pos x)).
  - simpl. apply (pretty_N_no_paren (N.pos x)).
Qed.

(** Two strings without [c] that are followed by [c] start at the same
    place: they are equal. *)
Lemma append_char_inj (c : Ascii.ascii) (s1 s2 r1 r2 : string) :
  has_char c s1 = false -> has_char c s2 = false ->
  s1 +:+ String c r1 = s2 +:+ String c r2 -> s1 = s2.
Proof.
  revert s2. induction s1 as [|a s1 IH]; intros [|b s2] H1 H2 Heq; cbn in *.
  - done.
  - injection Heq as Hc _. subst b. by rewrite decide_True in H2.
  - injection Heq as Hc _. subst a. by rewrite decide_True in H1.
  - injection Heq as -> Heq. destruct (decide (b = c)); [done|].
    f_equal. by apply IH.
Qed.

(** X13: the line printed for an error determines the numeric code: two
    lines printed by [HandleJvmtiError] are equal only if the codes are, even
    where the host's name and the description leave the rest ambiguous. *)
Theorem error_line_determines_code (err1 err2 : Z) (desc1 desc2 msg1 msg2 : string) :
  jvmti_error_line err1 desc1 msg1 = jvmti_error_line err2 desc2 msg2 ->
  err1 = err2.
Proof.
  unfold jvmti_error_line. intros Heq.
  apply (inj (String.append "JVMTI error: ")) in Heq.
  apply (inj pretty).
  apply (append_char_inj open_paren _ _ (desc1 +:+ ") " +:+ msg1 +:+ newline)
           (desc2 +:+ ") " +:+ msg2 +:+ newline));
    [apply pretty_Z_no_paren|apply pretty_Z_no_paren|exact Heq].
Qed.

Lemma error_line_determines_code_witness :
  jvmti_error_line 112 "A) B" "C" = jvmti_error_line 112 "A" "B) C" /\ 112 = 112.
Proof.
  split; [reflexivity|].
  exact (error_line_determines_code 112 112 "A) B" "A" "C" "B) C" eq_refl).
Defined.
